(** * The SIRD epidemic model of [epidemic_modelling/sird_base_model.py]

    A shallow embedding of the class [SIRD]: the constructor that derives
    one parameterisation from the other, the right-hand side of the ODE
    system, the normalisation of the initial conditions, the call of the
    integrator and the read-out of the final state.

    The class computes with Python's [float], binary64.  The file carries
    two readings of its arithmetic:

    - Module [SIRD] is the class with every float operation taken exactly,
      over the canonical rationals [Qc].  Control flow, attribute
      assignment and the exceptions are those of the class; the values are
      the exact ones, free of rounding, overflow and NaN.  A statement
      proved here about which branch is taken, what is stored and what is
      raised is a statement about the class; a statement that needs an
      identity of exact arithmetic says so.
    - Module [B64] is the arithmetic of the class over binary64 itself, the
      kernel's primitive floats.  It is where a statement that holds only
      in exact arithmetic is tested on concrete floats.

    Python's [int] is [Z].  An exception is a value of [exn]; a method of
    the class is a function from the object's attributes to a result and
    the attributes it leaves behind, so that what a method has stored
    before it raises stays stored, as in Python. *)

From Stdlib Require Import QArith Qcanon ZArith Lia.
From Stdlib Require PrimFloat FloatOps SpecFloat.
From stdpp Require Import base numbers option list strings gmap.

Import PrimFloat.PrimFloatNotations.
#[local] Set Warnings "-inexact-float".

Local Open Scope Qc_scope.

(** ** Exceptions and results *)

(** The built-in exceptions the class can raise, directly or through
    NumPy/SciPy. *)
Inductive exn : Type :=
| ValueError
| ZeroDivisionError
| AttributeError
| KeyError
| IndexError
| OverflowError
| RuntimeError.

Inductive result (A : Type) : Type :=
| Ok (a : A)
| Raise (e : exn).

Arguments Ok {A} a.
Arguments Raise {A} e.

Definition result_bind {A B : Type} (r : result A) (k : A -> result B) : result B :=
  match r with
  | Ok a => k a
  | Raise e => Raise e
  end.

Notation "x <- r ;; k" := (result_bind r (fun x => k))
  (at level 100, r at next level, right associativity, only parsing).

(** ** Python arithmetic *)

(** [a / b] on floats, taken exactly: raises [ZeroDivisionError] on a zero
    divisor, and is the exact quotient otherwise.  The binary64 operation,
    which rounds and can return an infinity or NaN, is [B64.truediv]. *)
Definition truediv (a b : Qc) : result Qc :=
  if decide (b = 0) then Raise ZeroDivisionError else Ok (a / b).

(** Quotients of magnitude 2^1024 - 2^970 and above round to a binary64
    infinity: it is the midpoint between the largest finite binary64,
    2^1024 - 2^971, and 2^1024. *)
Definition float_overflow_bound : Z := 2 ^ 1024 - 2 ^ 970.

(** [a / b] on ints is true division: [ZeroDivisionError] on a zero divisor,
    [OverflowError] when the quotient is too large for a float, and the
    quotient otherwise, here taken exactly (Python returns it rounded to the
    nearest binary64). *)
Definition int_truediv (a b : Z) : result Qc :=
  if decide (b = 0%Z) then Raise ZeroDivisionError
  else if decide (float_overflow_bound * Z.abs b <= Z.abs a)%Z then Raise OverflowError
  else Ok (Qc_of_Z a / Qc_of_Z b).

(** [d[k]] on a dict. *)
Definition getitem (d : gmap string Z) (k : string) : result Z :=
  match d !! k with
  | Some v => Ok v
  | None => Raise KeyError
  end.

(** [l[i]] on a sequence, for an index [i >= 0]. *)
Definition index (l : list Qc) (i : nat) : result Qc :=
  match l !! i with
  | Some v => Ok v
  | None => Raise IndexError
  end.

(** [a.sum()] on a one-dimensional array. *)
Definition array_sum (l : list Qc) : Qc := foldr Qcplus 0 l.

(** ** NumPy and SciPy *)

(** [np.linspace(start, stop, num)] with the default [endpoint=True]:
    [num] samples [start + i * step], [step = (stop - start) / (num - 1)];
    a single sample is [start]; a negative [num] raises [ValueError]. *)
Definition linspace (start stop : Qc) (num : Z) : result (list Qc) :=
  if (num <? 0)%Z then Raise ValueError
  else
    let div := (num - 1)%Z in
    let step := (stop - start) / Qc_of_Z div in
    Ok ((fun i : Z =>
           if (0 <? div)%Z then Qc_of_Z i * step + start
           else Qc_of_Z i * (stop - start) + start) <$> seqZ 0 num).

(** What [scipy.integrate.solve_ivp] returns: the sample times [t], the
    matrix [y] with one row per component and one column per sample, and
    the termination report. *)
Record OdeResult : Type := mkOdeResult {
  sol_t : list Qc;
  sol_y : list (list Qc);
  sol_status : Z;
  sol_success : bool
}.

(** The type of a right-hand side [fun(t, y, *args)] with three extra
    arguments, and of an integrator
    [solve_ivp(fun, t_span, y0, args=..., t_eval=...)]. *)
Definition rhs : Type := Qc -> list Qc -> Qc -> Qc -> Qc -> result (list Qc).

Definition integrator : Type :=
  rhs -> Z * Z -> list Qc -> Qc * Qc * Qc -> list Qc -> result OdeResult.

(** [y[:, -1]]: the last column of a matrix given by its rows. *)
Definition last_column (y : list (list Qc)) : result (list Qc) :=
  foldr (fun row acc =>
           match last row with
           | Some x => xs <- acc ;; Ok (x :: xs)
           | None => Raise IndexError
           end) (Ok []) y.

(** ** The class *)

Module SIRD.

(** The attributes of an instance.  [population], [y0] and [soln] do not
    exist until [setup] and [solve] assign them. *)
Record t : Type := mk {
  R0 : Qc;
  M : Qc;
  P : Qc;
  beta : Qc;
  gamma : Qc;
  delta : Qc;
  population : option Z;
  y0 : option (list Qc);
  soln : option OdeResult
}.

(** A method: from the attributes of [self] to what it returns or raises,
    and the attributes afterwards. *)
Definition method (A : Type) : Type := t -> result A * t.

Definition ret {A : Type} (a : A) : method A := fun self => (Ok a, self).

Definition bind {A B : Type} (m : method A) (k : A -> method B) : method B :=
  fun self =>
    match m self with
    | (Ok a, self') => k a self'
    | (Raise e, self') => (Raise e, self')
    end.

Definition lift {A : Type} (r : result A) : method A := fun self => (r, self).

Definition get_self : method t := fun self => (Ok self, self).

(** Reading an attribute that may not exist yet. *)
Definition getattr {A : Type} (f : t -> option A) : method A :=
  fun self =>
    match f self with
    | Some a => (Ok a, self)
    | None => (Raise AttributeError, self)
    end.

(** Attribute assignment. *)
Definition with_population (n : Z) (self : t) : t :=
  mk (R0 self) (M self) (P self) (beta self) (gamma self) (delta self)
     (Some n) (y0 self) (soln self).

Definition with_y0 (y : list Qc) (self : t) : t :=
  mk (R0 self) (M self) (P self) (beta self) (gamma self) (delta self)
     (population self) (Some y) (soln self).

Definition with_soln (s : OdeResult) (self : t) : t :=
  mk (R0 self) (M self) (P self) (beta self) (gamma self) (delta self)
     (population self) (y0 self) (Some s).

Definition set_population (n : Z) : method unit :=
  fun self => (Ok tt, with_population n self).

Definition set_y0 (y : list Qc) : method unit :=
  fun self => (Ok tt, with_y0 y self).

Definition set_soln (s : OdeResult) : method unit :=
  fun self => (Ok tt, with_soln s self).

Notation "x <~ m ;; k" := (bind m (fun x => k))
  (at level 100, m at next level, right associativity, only parsing).
Notation "m ;;; k" := (bind m (fun _ => k))
  (at level 100, right associativity, only parsing).

(** [SIRD.__init__]: an argument left out, or passed as [None], is [None]. *)
Definition __init__ (R0 M P beta gamma delta : option Qc) : result t :=
  match R0, M, P with
  | Some R0, Some M, Some P =>
      beta <- truediv R0 P ;;
      gamma <- truediv (1 - M) P ;;
      delta <- truediv M P ;;
      Ok (mk R0 M P beta gamma delta None None None)
  | _, _, _ =>
      match beta, gamma, delta with
      | Some beta, Some gamma, Some delta =>
          P <- truediv 1 (gamma + delta) ;;
          let R0 := beta * P in
          M <- truediv delta (gamma + delta) ;;
          Ok (mk R0 M P beta gamma delta None None None)
      | _, _, _ => Raise ValueError
      end
  end.

(** The four derivatives, taken exactly; [B64.dSdt], [B64.dIdt],
    [B64.dRdt] and [B64.dDdt] are the same expressions in binary64. *)
Definition dSdt (S I beta : Qc) : Qc := - beta * S * I.

Definition dIdt (S I beta gamma delta : Qc) : Qc :=
  beta * S * I - gamma * I - delta * I.

Definition dRdt (I gamma : Qc) : Qc := gamma * I.

Definition dDdt (I delta : Qc) : Qc := delta * I.

(** [S, I, R, D = y] raises [ValueError] unless [y] has four items. *)
Definition eqns (t : Qc) (y : list Qc) (beta gamma delta : Qc) : result (list Qc) :=
  match y with
  | [S_; I_; R_; D_] =>
      Ok [dSdt S_ I_ beta; dIdt S_ I_ beta gamma delta; dRdt I_ gamma; dDdt I_ delta]
  | _ => Raise ValueError
  end.

Definition setup (population cases recovered deaths : Z) : method unit :=
  set_population population ;;;
  initial_S <~ lift (int_truediv (population - cases - recovered - deaths) population) ;;
  initial_R <~ lift (int_truediv recovered population) ;;
  initial_D <~ lift (int_truediv deaths population) ;;
  initial_I <~ lift (int_truediv cases population) ;;
  set_y0 [initial_S; initial_I; initial_R; initial_D].

(** [get_params]: the last column of [self.soln.y], item by item, and its
    sum, as the dict literal lists them. *)
Definition get_params : method (list (string * Qc)) :=
  soln <~ getattr soln ;;
  params <~ lift (last_column (sol_y soln)) ;;
  pS <~ lift (index params 0) ;;
  pI <~ lift (index params 1) ;;
  pR <~ lift (index params 2) ;;
  pD <~ lift (index params 3) ;;
  ret [("S", pS); ("I", pI); ("R", pR); ("D", pD);
       ("Sum params:", array_sum params)]%string.

Section Solve.

(** [scipy.integrate.solve_ivp] is not part of this program: [solve] is
    stated for any integrator. *)
Variable solve_ivp : integrator.

(** The default of [time_frame]. *)
Definition time_frame_default : Z := 300.

(** [solve]: [time_frame = None] is the call that leaves the argument out. *)
Definition solve (initial_conditions : gmap string Z) (time_frame : option Z) : method t :=
  let time_frame := default time_frame_default time_frame in
  population <~ lift (getitem initial_conditions "population") ;;
  cases <~ lift (getitem initial_conditions "cases") ;;
  recovered <~ lift (getitem initial_conditions "recovered") ;;
  deaths <~ lift (getitem initial_conditions "deaths") ;;
  setup population cases recovered deaths ;;;
  let t_span := (0%Z, time_frame) in
  y0 <~ getattr y0 ;;
  self <~ get_self ;;
  t_eval <~ lift (linspace (Qc_of_Z 0) (Qc_of_Z time_frame) (time_frame * 2)) ;;
  soln <~ lift (solve_ivp eqns t_span y0 (beta self, gamma self, delta self) t_eval) ;;
  set_soln soln ;;;
  get_self.

End Solve.

End SIRD.

(** ** The arithmetic of the class in binary64 *)

Module B64.

(** [a / b] on floats: [ZeroDivisionError] when [b == 0.0], which both
    zeros satisfy and NaN does not; otherwise the binary64 quotient, which
    may be an infinity or NaN. *)
Definition truediv (a b : PrimFloat.float) : result PrimFloat.float :=
  if (b =? PrimFloat.zero)%float then Raise ZeroDivisionError else Ok (a / b)%float.

(** The six parameters of an instance. *)
Record t : Type := mk {
  R0 : PrimFloat.float;
  M : PrimFloat.float;
  P : PrimFloat.float;
  beta : PrimFloat.float;
  gamma : PrimFloat.float;
  delta : PrimFloat.float
}.

(** [SIRD.__init__]; the literal [1] is converted to [1.0] by the float
    operation it meets. *)
Definition __init__ (R0 M P beta gamma delta : option PrimFloat.float) : result t :=
  match R0, M, P with
  | Some R0, Some M, Some P =>
      beta <- truediv R0 P ;;
      gamma <- truediv (PrimFloat.one - M)%float P ;;
      delta <- truediv M P ;;
      Ok (mk R0 M P beta gamma delta)
  | _, _, _ =>
      match beta, gamma, delta with
      | Some beta, Some gamma, Some delta =>
          P <- truediv PrimFloat.one (gamma + delta)%float ;;
          let R0 := (beta * P)%float in
          M <- truediv delta (gamma + delta)%float ;;
          Ok (mk R0 M P beta gamma delta)
      | _, _, _ => Raise ValueError
      end
  end.

Definition dSdt (S I beta : PrimFloat.float) : PrimFloat.float := (- beta * S * I)%float.

Definition dIdt (S I beta gamma delta : PrimFloat.float) : PrimFloat.float :=
  (beta * S * I - gamma * I - delta * I)%float.

Definition dRdt (I gamma : PrimFloat.float) : PrimFloat.float := (gamma * I)%float.

Definition dDdt (I delta : PrimFloat.float) : PrimFloat.float := (delta * I)%float.

Definition eqns (t : PrimFloat.float) (y : list PrimFloat.float) (beta gamma delta : PrimFloat.float)
    : result (list PrimFloat.float) :=
  match y with
  | [S_; I_; R_; D_] =>
      Ok [dSdt S_ I_ beta; dIdt S_ I_ beta gamma delta; dRdt I_ gamma; dDdt I_ delta]
  | _ => Raise ValueError
  end.

(** The rational a float stands for; infinities and NaN stand for none. *)
Definition exact_value (x : PrimFloat.float) : option Q :=
  match FloatOps.Prim2SF x with
  | SpecFloat.S754_zero _ => Some 0%Q
  | SpecFloat.S754_finite s m e =>
      let v := Qred (inject_Z (Z.pos m) * Qpower 2 e) in
      Some (if s then Qopp v else v)
  | _ => None
  end.

End B64.

(** ** A reference integrator

    Forward Euler along the evaluation grid, one step per grid point, starting
    from [y0] at the left end of [t_span].  It stands in for SciPy where
    [solve] is run on concrete inputs. *)

Fixpoint euler_samples (f : rhs) (args : Qc * Qc * Qc) (t : Qc) (y : list Qc)
    (t_eval : list Qc) : result (list (list Qc)) :=
  match t_eval with
  | [] => Ok []
  | t' :: rest =>
      let '(a1, a2, a3) := args in
      dy <- f t y a1 a2 a3 ;;
      let y' := zip_with (fun yi dyi => yi + (t' - t) * dyi) y dy in
      ys <- euler_samples f args t' y' rest ;;
      Ok (y' :: ys)
  end.

(** The samples, one list per time point, as a matrix with one row per
    component. *)
Definition rows_of_samples (n : nat) (samples : list (list Qc)) : list (list Qc) :=
  (fun i => omap (fun sample => sample !! i) samples) <$> seq 0 n.

Definition euler : integrator :=
  fun f t_span y0 args t_eval =>
    samples <- euler_samples f args (Qc_of_Z (fst t_span)) y0 t_eval ;;
    Ok (mkOdeResult t_eval (rows_of_samples (length y0) samples) 0 true).

(** The initial conditions of the module, and the instance of the
    specification's scenario (R0 = 2.5, M = 0.02, P = 5.1). *)
Definition initial_conditions : gmap string Z :=
  <["population" := 60000000%Z]>
    (<["cases" := 3000%Z]>
       (<["deaths" := 80%Z]>
          (<["recovered" := 20%Z]> ∅))).

Definition scenario : SIRD.t :=
  SIRD.mk (Q2Qc 2.5) (Q2Qc 0.02) (Q2Qc 5.1)
    (Q2Qc (25 # 51)) (Q2Qc (49 # 255)) (Q2Qc (1 # 255)) None None None.

(** Initial conditions whose counts exceed the population. *)
Definition excess_conditions : gmap string Z :=
  <["population" := 10%Z]>
    (<["cases" := 5%Z]>
       (<["deaths" := 5%Z]>
          (<["recovered" := 5%Z]> ∅))).

(** The fractions [setup] computes from counts, in the order S, I, R, D. *)
Definition initial_state (population cases recovered deaths : Z) : list Qc :=
  [Qc_of_Z (population - cases - recovered - deaths) / Qc_of_Z population;
   Qc_of_Z cases / Qc_of_Z population;
   Qc_of_Z recovered / Qc_of_Z population;
   Qc_of_Z deaths / Qc_of_Z population].

(** The quotient [a / b] of two ints is defined and within the float range. *)
Definition quotient_fits (a b : Z) : Prop :=
  b <> 0%Z /\ (Z.abs a < float_overflow_bound * Z.abs b)%Z.

(** The four divisions of [setup] all return. *)
Definition counts_fit (population cases recovered deaths : Z) : Prop :=
  quotient_fits (population - cases - recovered - deaths) population
  /\ quotient_fits recovered population
  /\ quotient_fits deaths population
  /\ quotient_fits cases population.

(** * Properties *)

Local Ltac qc_canon := apply Qc_is_canon; vm_compute; reflexivity.

(** [counts_fit] on concrete counts. *)
Local Ltac fits :=
  unfold counts_fit, quotient_fits;
  repeat split; first [discriminate | vm_compute; reflexivity].

(** ** Division *)

Lemma truediv_ok (a b : Qc) : b <> 0 -> truediv a b = Ok (a / b).
Proof. intros Hb. unfold truediv. destruct (decide (b = 0)); [contradiction|reflexivity]. Qed.

Lemma truediv_zero (a : Qc) : truediv a 0 = Raise ZeroDivisionError.
Proof. unfold truediv. destruct (decide (0 = 0)); [reflexivity|contradiction]. Qed.


(** ** The arithmetic in binary64 *)

Module B64Facts.

Import PrimFloat.

(** C1, as stated, fails in binary64: at S = 0.9, I = 0.1 and the rates
    0.5, 0.2, 0.01 the four floats [eqns] returns, added in the order of the
    list, give -8.67e-19; as rational numbers they sum to -1/2^60. *)
Lemma eqns_sum_zero_counterexample :
  exists dS dI dR dD : float,
    B64.eqns 0%float [0.9; 0.1; 0; 0]%float 0.5%float 0.2%float 0.01%float
    = Ok [dS; dI; dR; dD]
    /\ (dS + dI + dR + dD =? 0)%float = false
    /\ (0 + dS + dI + dR + dD =? 0)%float = false
    /\ exists qS qI qR qD : Q,
        B64.exact_value dS = Some qS /\ B64.exact_value dI = Some qI
        /\ B64.exact_value dR = Some qR /\ B64.exact_value dD = Some qD
        /\ (qS + qI + qR + qD == - (1 # 2 ^ 60))%Q.
Proof.
  eexists _, _, _, _. split; [vm_compute; reflexivity|].
  split; [vm_compute; reflexivity|]. split; [vm_compute; reflexivity|].
  eexists _, _, _, _.
  do 4 (split; [vm_compute; reflexivity|]).
  vm_compute. reflexivity.
Qed.

(** C2, as stated, fails in binary64: beta = 1, gamma = delta = 1e308 is a
    valid triple (gamma + delta is an infinity, not 0), the constructor
    derives P = 1/inf = 0.0, and the way back from (R0, M, P) divides by that
    zero.  At the ordinary triple (0.5, 0.2, 0.01) the way back returns, but
    gamma does not come back equal. *)
Lemma rates_descriptors_round_trip_counterexample :
  (0 <? 1)%float = true /\ (0 <? 1e308)%float = true /\ (0 <=? 1e308)%float = true
  /\ (1e308 + 1e308 =? 0)%float = false
  /\ (exists self,
        B64.__init__ None None None (Some 1%float) (Some 1e308%float) (Some 1e308%float)
        = Ok self
        /\ B64.P self = 0%float
        /\ B64.__init__ (Some (B64.R0 self)) (Some (B64.M self)) (Some (B64.P self))
             None None None
           = Raise ZeroDivisionError)
  /\ (exists self self',
        B64.__init__ None None None (Some 0.5%float) (Some 0.2%float) (Some 0.01%float)
        = Ok self
        /\ B64.__init__ (Some (B64.R0 self)) (Some (B64.M self)) (Some (B64.P self))
             None None None
           = Ok self'
        /\ (B64.gamma self' =? 0.2)%float = false).
Proof.
  do 4 (split; [vm_compute; reflexivity|]). split.
  - eexists. split; [vm_compute; reflexivity|].
    split; vm_compute; reflexivity.
  - eexists _, _. split; [vm_compute; reflexivity|].
    split; vm_compute; reflexivity.
Qed.


End B64Facts.

(** ** The right-hand side *)

(** C1 (amended): for every state (S, I, R, D) and all rates, [eqns]
    returns the four derivatives dS = -beta*S*I,
    dI = beta*S*I - gamma*I - delta*I, dR = gamma*I, dD = delta*I, and in
    exact arithmetic they sum to exactly 0. *)
Theorem eqns_sum_zero (t S I R D beta gamma delta : Qc) :
  exists dS dI dR dD : Qc,
    SIRD.eqns t [S; I; R; D] beta gamma delta = Ok [dS; dI; dR; dD]
    /\ dS = - beta * S * I
    /\ dI = beta * S * I - gamma * I - delta * I
    /\ dR = gamma * I
    /\ dD = delta * I
    /\ dS + dI + dR + dD = 0.
Proof.
  exists (SIRD.dSdt S I beta), (SIRD.dIdt S I beta gamma delta),
    (SIRD.dRdt I gamma), (SIRD.dDdt I delta).
  repeat split.
  unfold SIRD.dSdt, SIRD.dIdt, SIRD.dRdt, SIRD.dDdt. ring.
Qed.

(** C10: [eqns] does not depend on the time [t] nor on the R and D
    components of the state: two calls that agree on S, I and the rates
    return the same derivatives. *)
Theorem eqns_independent_of_t_R_D (t t' S I R R' D D' beta gamma delta : Qc) :
  SIRD.eqns t [S; I; R; D] beta gamma delta
  = SIRD.eqns t' [S; I; R'; D'] beta gamma delta.
Proof. reflexivity. Qed.

(** ** The constructor *)

Lemma init_descriptors (R0 M P : Qc) (beta gamma delta : option Qc) :
  P <> 0 ->
  SIRD.__init__ (Some R0) (Some M) (Some P) beta gamma delta
  = Ok (SIRD.mk R0 M P (R0 / P) ((1 - M) / P) (M / P) None None None).
Proof.
  intros HP. unfold SIRD.__init__.
  rewrite !truediv_ok by assumption. reflexivity.
Qed.

Lemma init_descriptors_zero (R0 M : Qc) (beta gamma delta : option Qc) :
  SIRD.__init__ (Some R0) (Some M) (Some 0) beta gamma delta = Raise ZeroDivisionError.
Proof. unfold SIRD.__init__. rewrite truediv_zero. reflexivity. Qed.

(** The constructor takes its second branch exactly when one of R0, M, P
    is [None]. *)
Lemma init_rates_branch (R0 M P : option Qc) (beta gamma delta : option Qc) :
  R0 = None \/ M = None \/ P = None ->
  SIRD.__init__ R0 M P beta gamma delta
  = match beta, gamma, delta with
    | Some beta, Some gamma, Some delta =>
        P <- truediv 1 (gamma + delta) ;;
        M <- truediv delta (gamma + delta) ;;
        Ok (SIRD.mk (beta * P) M P beta gamma delta None None None)
    | _, _, _ => Raise ValueError
    end.
Proof.
  intros H. unfold SIRD.__init__.
  destruct R0, M, P; try reflexivity.
  destruct H as [H|[H|H]]; discriminate H.
Qed.

Lemma init_rates (R0 M P : option Qc) (beta gamma delta : Qc) :
  R0 = None \/ M = None \/ P = None ->
  gamma + delta <> 0 ->
  SIRD.__init__ R0 M P (Some beta) (Some gamma) (Some delta)
  = Ok (SIRD.mk (beta * (1 / (gamma + delta))) (delta / (gamma + delta))
          (1 / (gamma + delta)) beta gamma delta None None None).
Proof.
  intros H Hgd. rewrite init_rates_branch by assumption.
  rewrite !truediv_ok by assumption. reflexivity.
Qed.

(** C3: built from descriptors with P <> 0, whatever else is passed, the
    instance carries beta = R0/P, gamma = (1-M)/P, delta = M/P, computed by
    these three divisions alone; for R0 = 2.5, M = 0.02, P = 5.1 they are
    25/51, 49/255 and 1/255, that is 0.4902, 0.1922 and 0.00392 to the
    digits shown. *)
Theorem init_from_descriptors_formulas
    (R0 M P : Qc) (beta gamma delta : option Qc) :
  P <> 0 ->
  exists self,
    SIRD.__init__ (Some R0) (Some M) (Some P) beta gamma delta = Ok self
    /\ SIRD.R0 self = R0 /\ SIRD.M self = M /\ SIRD.P self = P
    /\ SIRD.beta self = R0 / P
    /\ SIRD.gamma self = (1 - M) / P
    /\ SIRD.delta self = M / P
    /\ (R0 = Q2Qc 2.5 -> M = Q2Qc 0.02 -> P = Q2Qc 5.1 ->
        SIRD.beta self = Q2Qc (25 # 51)
        /\ SIRD.gamma self = Q2Qc (49 # 255)
        /\ SIRD.delta self = Q2Qc (1 # 255)
        /\ Q2Qc 0.49015 <= SIRD.beta self <= Q2Qc 0.49025
        /\ Q2Qc 0.19215 <= SIRD.gamma self <= Q2Qc 0.19225
        /\ Q2Qc 0.003915 <= SIRD.delta self <= Q2Qc 0.003925).
Proof.
  intros HP.
  eexists. split; [apply init_descriptors; assumption|]. simpl.
  do 6 (split; [reflexivity|]).
  intros -> -> ->.
  repeat split; try qc_canon; vm_compute; discriminate.
Qed.

(** The scenario of the specification: R0 = 2.5, M = 0.02, P = 5.1. *)
Lemma init_from_descriptors_formulas_witness :
  Q2Qc 5.1 <> 0
  /\ exists self,
      SIRD.__init__ (Some (Q2Qc 2.5)) (Some (Q2Qc 0.02)) (Some (Q2Qc 5.1))
        None None None = Ok self
      /\ Q2Qc 0.49015 <= SIRD.beta self <= Q2Qc 0.49025
      /\ Q2Qc 0.19215 <= SIRD.gamma self <= Q2Qc 0.19225
      /\ Q2Qc 0.003915 <= SIRD.delta self <= Q2Qc 0.003925.
Proof.
  split; [discriminate|].
  destruct (init_from_descriptors_formulas (Q2Qc 2.5) (Q2Qc 0.02) (Q2Qc 5.1)
              None None None ltac:(discriminate))
    as (self & Hinit & _ & _ & _ & _ & _ & _ & Hnum).
  destruct (Hnum eq_refl eq_refl eq_refl) as (_ & _ & _ & Hb & Hg & Hd).
  exists self. repeat split; first [exact Hinit | apply Hb | apply Hg | apply Hd].
Defined.

(** C2 (amended): rates to descriptors and back, in exact arithmetic.
    Built from (beta, gamma, delta) with gamma + delta <> 0, the instance
    exposes R0 = beta*P, M = delta/(gamma+delta), P = 1/(gamma+delta);
    building a second instance from these three descriptors gives back
    beta, gamma and delta exactly.  The valid triples (beta > 0, gamma > 0,
    delta >= 0) are among those with gamma + delta <> 0. *)
Theorem rates_descriptors_round_trip (beta gamma delta : Qc) :
  gamma + delta <> 0 ->
  exists self self',
    SIRD.__init__ None None None (Some beta) (Some gamma) (Some delta) = Ok self
    /\ SIRD.P self = 1 / (gamma + delta)
    /\ SIRD.R0 self = beta * SIRD.P self
    /\ SIRD.M self = delta / (gamma + delta)
    /\ SIRD.__init__ (Some (SIRD.R0 self)) (Some (SIRD.M self)) (Some (SIRD.P self))
         None None None = Ok self'
    /\ SIRD.beta self' = beta
    /\ SIRD.gamma self' = gamma
    /\ SIRD.delta self' = delta.
Proof.
  intros Hgd.
  assert (HP : 1 / (gamma + delta) <> 0).
  { intros H. apply (f_equal (fun x => x * (gamma + delta))) in H.
    rewrite Qcmult_0_l in H.
    replace (1 / (gamma + delta) * (gamma + delta)) with (Q2Qc 1) in H
      by (field; assumption).
    discriminate H. }
  eexists. eexists.
  split; [apply init_rates; [left; reflexivity | assumption]|].
  do 3 (split; [reflexivity|]).
  split; [apply (init_descriptors _ _ _ None None None); exact HP|].
  cbn [SIRD.beta SIRD.gamma SIRD.delta SIRD.R0 SIRD.M SIRD.P].
  repeat split; field; (split; [assumption | discriminate]).
Qed.

(** At beta = 1/2, gamma = 1/5, delta = 1/100. *)
Lemma rates_descriptors_round_trip_witness :
  Q2Qc 0.2 + Q2Qc 0.01 <> 0
  /\ exists self self',
      SIRD.__init__ None None None (Some (Q2Qc 0.5)) (Some (Q2Qc 0.2)) (Some (Q2Qc 0.01))
      = Ok self
      /\ SIRD.__init__ (Some (SIRD.R0 self)) (Some (SIRD.M self)) (Some (SIRD.P self))
           None None None = Ok self'
      /\ SIRD.beta self' = Q2Qc 0.5
      /\ SIRD.gamma self' = Q2Qc 0.2
      /\ SIRD.delta self' = Q2Qc 0.01.
Proof.
  split; [discriminate|].
  destruct (rates_descriptors_round_trip (Q2Qc 0.5) (Q2Qc 0.2) (Q2Qc 0.01)
              ltac:(discriminate))
    as (self & self' & H1 & _ & _ & _ & H2 & Hb & Hg & Hd).
  exists self, self'. repeat split; assumption.
Defined.


(** C6: built from rates with gamma = 0 and delta = 0, the constructor
    raises [ZeroDivisionError] (from P = 1/(gamma+delta)) and returns no
    instance. *)
Theorem init_degenerate_rates (R0 M P : option Qc) (beta : Qc) :
  R0 = None \/ M = None \/ P = None ->
  SIRD.__init__ R0 M P (Some beta) (Some 0) (Some 0) = Raise ZeroDivisionError
  /\ forall self, SIRD.__init__ R0 M P (Some beta) (Some 0) (Some 0) <> Ok self.
Proof.
  intros H. rewrite init_rates_branch by assumption.
  replace (0 + 0) with (Q2Qc 0) by ring.
  rewrite truediv_zero. split; [reflexivity | discriminate].
Qed.

(** With only R0 and M of the first group given. *)
Lemma init_degenerate_rates_witness :
  SIRD.__init__ (Some (Q2Qc 2.5)) (Some (Q2Qc 0.02)) None (Some (Q2Qc 0.5)) (Some 0) (Some 0)
  = Raise ZeroDivisionError.
Proof.
  apply (init_degenerate_rates (Some (Q2Qc 2.5)) (Some (Q2Qc 0.02)) None (Q2Qc 0.5)).
  right; right; reflexivity.
Defined.




(** ** Normalising the initial conditions *)

Lemma Qc_of_Z_eq_0 (n : Z) : Qc_of_Z n = 0 <-> n = 0%Z.
Proof. rewrite <- Z2Qc_inj_0. apply Z2Qc_inj_iff. Qed.

Lemma int_truediv_ok (a b : Z) :
  quotient_fits a b -> int_truediv a b = Ok (Qc_of_Z a / Qc_of_Z b).
Proof.
  intros [Hb Hfit]. unfold int_truediv.
  destruct (decide (b = 0%Z)); [contradiction|].
  destruct (decide (float_overflow_bound * Z.abs b <= Z.abs a)%Z); [lia | reflexivity].
Qed.

Lemma int_truediv_zero (a : Z) : int_truediv a 0 = Raise ZeroDivisionError.
Proof. reflexivity. Qed.

Lemma int_truediv_cases (a b : Z) :
  (quotient_fits a b /\ int_truediv a b = Ok (Qc_of_Z a / Qc_of_Z b))
  \/ (~ quotient_fits a b
      /\ exists e, (e = ZeroDivisionError \/ e = OverflowError)
                   /\ int_truediv a b = Raise e).
Proof.
  unfold int_truediv, quotient_fits.
  destruct (decide (b = 0%Z)) as [Hb|Hb].
  - right. split; [tauto|]. exists ZeroDivisionError. split; [left|]; reflexivity.
  - destruct (decide (float_overflow_bound * Z.abs b <= Z.abs a)%Z) as [Hov|Hov].
    + right. split; [lia|]. exists OverflowError. split; [right|]; reflexivity.
    + left. split; [split; [exact Hb | lia] | reflexivity].
Qed.

(** What [setup] does when the four divisions return, ... *)
Lemma setup_ok (population cases recovered deaths : Z) (self : SIRD.t) :
  counts_fit population cases recovered deaths ->
  SIRD.setup population cases recovered deaths self
  = (Ok tt, SIRD.with_y0 (initial_state population cases recovered deaths)
              (SIRD.with_population population self)).
Proof.
  intros (HS & HR & HD & HI).
  unfold SIRD.setup, SIRD.bind, SIRD.lift, SIRD.set_population.
  rewrite (int_truediv_ok _ _ HS), (int_truediv_ok _ _ HR),
    (int_truediv_ok _ _ HD), (int_truediv_ok _ _ HI).
  reflexivity.
Qed.

Lemma setup_zero (cases recovered deaths : Z) (self : SIRD.t) :
  SIRD.setup 0 cases recovered deaths self
  = (Raise ZeroDivisionError, SIRD.with_population 0 self).
Proof. reflexivity. Qed.

(** ... and in every case: either all four return, or the first that does
    not raises and only the population has been stored. *)
Lemma setup_cases (population cases recovered deaths : Z) (self : SIRD.t) :
  (counts_fit population cases recovered deaths
   /\ SIRD.setup population cases recovered deaths self
      = (Ok tt, SIRD.with_y0 (initial_state population cases recovered deaths)
                  (SIRD.with_population population self)))
  \/ (~ counts_fit population cases recovered deaths
      /\ exists e, (e = ZeroDivisionError \/ e = OverflowError)
                   /\ SIRD.setup population cases recovered deaths self
                      = (Raise e, SIRD.with_population population self)).
Proof.
  unfold counts_fit.
  destruct (int_truediv_cases (population - cases - recovered - deaths) population)
    as [[HS ES]|[HS (e & He & ES)]];
    [|right; split; [tauto|]; exists e; split; [exact He|];
      unfold SIRD.setup, SIRD.bind, SIRD.lift, SIRD.set_population;
      rewrite ES; reflexivity].
  destruct (int_truediv_cases recovered population) as [[HR ER]|[HR (e & He & ER)]];
    [|right; split; [tauto|]; exists e; split; [exact He|];
      unfold SIRD.setup, SIRD.bind, SIRD.lift, SIRD.set_population;
      rewrite ES, ER; reflexivity].
  destruct (int_truediv_cases deaths population) as [[HD ED]|[HD (e & He & ED)]];
    [|right; split; [tauto|]; exists e; split; [exact He|];
      unfold SIRD.setup, SIRD.bind, SIRD.lift, SIRD.set_population;
      rewrite ES, ER, ED; reflexivity].
  destruct (int_truediv_cases cases population) as [[HI EI]|[HI (e & He & EI)]];
    [|right; split; [tauto|]; exists e; split; [exact He|];
      unfold SIRD.setup, SIRD.bind, SIRD.lift, SIRD.set_population;
      rewrite ES, ER, ED, EI; reflexivity].
  left. split; [tauto|]. apply setup_ok. unfold counts_fit. tauto.
Qed.

Lemma counts_fit_nonzero (population cases recovered deaths : Z) :
  counts_fit population cases recovered deaths -> population <> 0%Z.
Proof. intros ([H _] & _). exact H. Qed.

(** ** The evaluation grid *)

Lemma linspace_negative (start stop : Qc) (num : Z) :
  (num < 0)%Z -> linspace start stop num = Raise ValueError.
Proof.
  intros H. unfold linspace.
  destruct (Z.ltb_spec num 0); [reflexivity | lia].
Qed.

Lemma linspace_samples (start stop : Qc) (num : Z) :
  (0 <= num)%Z ->
  exists grid,
    linspace start stop num = Ok grid
    /\ Z.of_nat (length grid) = num
    /\ forall i : nat,
        (Z.of_nat i < num)%Z ->
        grid !! i
        = Some (if (1 <? num)%Z
                then Qc_of_Z (Z.of_nat i) * ((stop - start) / Qc_of_Z (num - 1)) + start
                else start).
Proof.
  intros Hnum. unfold linspace.
  destruct (Z.ltb_spec num 0); [lia|].
  eexists. split; [reflexivity|]. split.
  - rewrite length_fmap, length_seqZ. lia.
  - intros i Hi. rewrite list_lookup_fmap, lookup_seqZ_lt by exact Hi. simpl.
    destruct (Z.ltb_spec 0 (num - 1)), (Z.ltb_spec 1 num); try lia; [reflexivity|].
    assert (i = 0%nat) as -> by lia.
    change (0 + Z.of_nat 0)%Z with 0%Z.
    rewrite Z2Qc_inj_0. f_equal. ring.
Qed.

(** ** Solving *)

Section SolveFacts.

Variable solve_ivp : integrator.

(** What [solve] does once the four keys are found: [setup], the grid, the
    integrator, and the assignment of [soln]. *)
Lemma solve_steps (ic : gmap string Z) (time_frame : option Z) (self : SIRD.t)
    (population cases recovered deaths : Z) :
  ic !! "population"%string = Some population ->
  ic !! "cases"%string = Some cases ->
  ic !! "recovered"%string = Some recovered ->
  ic !! "deaths"%string = Some deaths ->
  SIRD.solve solve_ivp ic time_frame self
  = let tf := default SIRD.time_frame_default time_frame in
    match SIRD.setup population cases recovered deaths self with
    | (Raise e, self1) => (Raise e, self1)
    | (Ok _, self1) =>
        match SIRD.y0 self1 with
        | None => (Raise AttributeError, self1)
        | Some y0 =>
            match linspace (Qc_of_Z 0) (Qc_of_Z tf) (tf * 2) with
            | Raise e => (Raise e, self1)
            | Ok t_eval =>
                match solve_ivp SIRD.eqns (0%Z, tf) y0
                        (SIRD.beta self1, SIRD.gamma self1, SIRD.delta self1) t_eval with
                | Raise e => (Raise e, self1)
                | Ok s => (Ok (SIRD.with_soln s self1), SIRD.with_soln s self1)
                end
            end
        end
    end.
Proof.
  intros Hp Hc Hr Hd.
  unfold SIRD.solve, SIRD.bind, SIRD.lift, SIRD.getattr, SIRD.get_self,
    SIRD.set_soln, getitem.
  rewrite Hp, Hc, Hr, Hd. cbv zeta.
  destruct (SIRD.setup population cases recovered deaths self) as [[[]|e] self1];
    [|reflexivity].
  destruct (SIRD.y0 self1) as [y0|]; [|reflexivity].
  destruct (linspace _ _ _) as [t_eval|e]; [|reflexivity].
  destruct (solve_ivp _ _ _ _ _) as [s|e]; reflexivity.
Qed.

Lemma solve_run (ic : gmap string Z) (time_frame : option Z) (self : SIRD.t)
    (population cases recovered deaths : Z) :
  ic !! "population"%string = Some population ->
  ic !! "cases"%string = Some cases ->
  ic !! "recovered"%string = Some recovered ->
  ic !! "deaths"%string = Some deaths ->
  counts_fit population cases recovered deaths ->
  (0 <= default SIRD.time_frame_default time_frame)%Z ->
  exists t_eval,
    linspace (Qc_of_Z 0) (Qc_of_Z (default SIRD.time_frame_default time_frame))
      (default SIRD.time_frame_default time_frame * 2) = Ok t_eval
    /\ SIRD.solve solve_ivp ic time_frame self
       = let self1 := SIRD.with_y0 (initial_state population cases recovered deaths)
                        (SIRD.with_population population self) in
         match solve_ivp SIRD.eqns (0%Z, default SIRD.time_frame_default time_frame)
                 (initial_state population cases recovered deaths)
                 (SIRD.beta self, SIRD.gamma self, SIRD.delta self) t_eval with
         | Raise e => (Raise e, self1)
         | Ok s => (Ok (SIRD.with_soln s self1), SIRD.with_soln s self1)
         end.
Proof.
  intros Hp Hc Hr Hd Hfit Htf.
  destruct (linspace_samples (Qc_of_Z 0)
              (Qc_of_Z (default SIRD.time_frame_default time_frame))
              (default SIRD.time_frame_default time_frame * 2) ltac:(lia))
    as (t_eval & Hgrid & _).
  exists t_eval. split; [exact Hgrid|].
  rewrite (solve_steps ic time_frame self _ _ _ _ Hp Hc Hr Hd).
  rewrite setup_ok by exact Hfit. cbv zeta. cbn [SIRD.y0 SIRD.with_y0].
  rewrite Hgrid. reflexivity.
Qed.

(** A successful [solve] has gone through every step. *)
Lemma solve_inv (ic : gmap string Z) (time_frame : option Z) (self self' r : SIRD.t) :
  SIRD.solve solve_ivp ic time_frame self = (Ok r, self') ->
  exists (population cases recovered deaths : Z) (t_eval : list Qc) (s : OdeResult),
    ic !! "population"%string = Some population
    /\ ic !! "cases"%string = Some cases
    /\ ic !! "recovered"%string = Some recovered
    /\ ic !! "deaths"%string = Some deaths
    /\ counts_fit population cases recovered deaths
    /\ linspace (Qc_of_Z 0) (Qc_of_Z (default SIRD.time_frame_default time_frame))
         (default SIRD.time_frame_default time_frame * 2) = Ok t_eval
    /\ solve_ivp SIRD.eqns (0%Z, default SIRD.time_frame_default time_frame)
         (initial_state population cases recovered deaths)
         (SIRD.beta self, SIRD.gamma self, SIRD.delta self) t_eval = Ok s
    /\ self' = SIRD.with_soln s
                 (SIRD.with_y0 (initial_state population cases recovered deaths)
                    (SIRD.with_population population self))
    /\ r = self'.
Proof.
  intros H.
  destruct (ic !! "population"%string) as [p|] eqn:Hp;
    [|unfold SIRD.solve, SIRD.bind, SIRD.lift, getitem in H; rewrite Hp in H;
      discriminate H].
  destruct (ic !! "cases"%string) as [c|] eqn:Hc;
    [|unfold SIRD.solve, SIRD.bind, SIRD.lift, getitem in H; rewrite Hp, Hc in H;
      discriminate H].
  destruct (ic !! "recovered"%string) as [rc|] eqn:Hr;
    [|unfold SIRD.solve, SIRD.bind, SIRD.lift, getitem in H; rewrite Hp, Hc, Hr in H;
      discriminate H].
  destruct (ic !! "deaths"%string) as [d|] eqn:Hd;
    [|unfold SIRD.solve, SIRD.bind, SIRD.lift, getitem in H; rewrite Hp, Hc, Hr, Hd in H;
      discriminate H].
  rewrite (solve_steps ic time_frame self _ _ _ _ Hp Hc Hr Hd) in H. cbv zeta in H.
  destruct (setup_cases p c rc d self) as [[Hfit Hsetup]|[_ (e & _ & Hsetup)]];
    rewrite Hsetup in H; [|discriminate H].
  cbn [SIRD.y0 SIRD.with_y0] in H.
  destruct (linspace _ _ _) as [t_eval|e] eqn:Hgrid; [|discriminate H].
  cbn [SIRD.beta SIRD.gamma SIRD.delta SIRD.with_population] in H.
  destruct (solve_ivp _ _ _ _ _) as [s|e] eqn:Hs; [|discriminate H].
  injection H as <- <-.
  exists p, c, rc, d, t_eval, s.
  do 7 (split; [first [assumption | reflexivity]|]). split; reflexivity.
Qed.

End SolveFacts.

(** ** Counts that exceed the population *)

(** C4, as stated, fails: with population 10 and cases = recovered =
    deaths = 5, [setup] raises nothing and stores the state
    (-1/2, 1/2, 1/2, 1/2), and [solve] with the reference integrator returns
    an instance that holds a trajectory. *)
Lemma setup_excess_counts_counterexample :
  (10 < 5 + 5 + 5)%Z
  /\ fst (SIRD.setup 10 5 5 5 scenario) = Ok tt
  /\ SIRD.population (snd (SIRD.setup 10 5 5 5 scenario)) = Some 10%Z
  /\ SIRD.y0 (snd (SIRD.setup 10 5 5 5 scenario))
     = Some [Q2Qc (-1 # 2); Q2Qc (1 # 2); Q2Qc (1 # 2); Q2Qc (1 # 2)]
  /\ exists r,
      fst (SIRD.solve euler excess_conditions (Some 1%Z) scenario) = Ok r
      /\ SIRD.soln r <> None.
Proof.
  rewrite setup_ok by fits.
  split; [reflexivity|]. split; [reflexivity|]. split; [reflexivity|].
  split.
  - cbn [snd SIRD.y0 SIRD.with_y0]. unfold initial_state.
    repeat f_equal; qc_canon.
  - eexists. split; [vm_compute; reflexivity|]. discriminate.
Qed.

(** C4 (amended): for counts with cases + recovered + deaths > population,
    [setup] does not validate the counts.  The only exceptions it can raise
    are those of its divisions, [ZeroDivisionError] and [OverflowError];
    when the four divisions return, it raises nothing and stores the
    population and the four quotients as the state; and whenever the
    integrator returns a result for that state, [solve] stores it and
    returns the instance. *)
Theorem setup_excess_counts_accepted
    (population cases recovered deaths : Z) (self : SIRD.t) :
  (population < cases + recovered + deaths)%Z ->
  (forall e self',
      SIRD.setup population cases recovered deaths self = (Raise e, self') ->
      e = ZeroDivisionError \/ e = OverflowError)
  /\ (counts_fit population cases recovered deaths ->
      exists S0 I0 R0 D0 : Qc,
        int_truediv (population - cases - recovered - deaths) population = Ok S0
        /\ int_truediv cases population = Ok I0
        /\ int_truediv recovered population = Ok R0
        /\ int_truediv deaths population = Ok D0
        /\ SIRD.setup population cases recovered deaths self
           = (Ok tt, SIRD.with_y0 [S0; I0; R0; D0]
                       (SIRD.with_population population self))
        /\ forall (solve_ivp : integrator) (ic : gmap string Z) (tf : Z),
            ic !! "population"%string = Some population ->
            ic !! "cases"%string = Some cases ->
            ic !! "recovered"%string = Some recovered ->
            ic !! "deaths"%string = Some deaths ->
            (0 <= tf)%Z ->
            exists t_eval,
              linspace (Qc_of_Z 0) (Qc_of_Z tf) (tf * 2) = Ok t_eval
              /\ forall s,
                  solve_ivp SIRD.eqns (0%Z, tf) [S0; I0; R0; D0]
                    (SIRD.beta self, SIRD.gamma self, SIRD.delta self) t_eval = Ok s ->
                  SIRD.solve solve_ivp ic (Some tf) self
                  = (Ok (SIRD.with_soln s
                           (SIRD.with_y0 [S0; I0; R0; D0]
                              (SIRD.with_population population self))),
                     SIRD.with_soln s
                       (SIRD.with_y0 [S0; I0; R0; D0]
                          (SIRD.with_population population self)))).
Proof.
  intros _. split.
  - intros e self' Hsetup.
    destruct (setup_cases population cases recovered deaths self)
      as [[_ H]|[_ (e' & He' & H)]];
      rewrite H in Hsetup; [discriminate Hsetup|].
    injection Hsetup as <- _. exact He'.
  - intros Hfit. pose proof Hfit as (HS & HR & HD & HI).
    eexists _, _, _, _.
    split; [exact (int_truediv_ok _ _ HS)|].
    split; [exact (int_truediv_ok _ _ HI)|].
    split; [exact (int_truediv_ok _ _ HR)|].
    split; [exact (int_truediv_ok _ _ HD)|].
    split; [exact (setup_ok _ _ _ _ self Hfit)|].
    intros solve_ivp ic tf Hp Hc Hr Hd Htf.
    destruct (solve_run solve_ivp ic (Some tf) self _ _ _ _ Hp Hc Hr Hd Hfit Htf)
      as (t_eval & Hgrid & Hsolve).
    change (default SIRD.time_frame_default (Some tf)) with tf in Hgrid, Hsolve.
    exists t_eval. split; [exact Hgrid|].
    intros s Hs. rewrite Hsolve. cbv zeta.
    unfold initial_state. rewrite Hs. reflexivity.
Qed.

(** At population 10 and cases = recovered = deaths = 5. *)
Lemma setup_excess_counts_accepted_witness :
  (10 < 5 + 5 + 5)%Z
  /\ exists S0 I0 R0 D0 : Qc,
      SIRD.setup 10 5 5 5 scenario
      = (Ok tt, SIRD.with_y0 [S0; I0; R0; D0] (SIRD.with_population 10 scenario)).
Proof.
  split; [lia|].
  destruct (setup_excess_counts_accepted 10 5 5 5 scenario ltac:(lia)) as [_ Hok].
  destruct (Hok ltac:(fits)) as (S0 & I0 & R0 & D0 & _ & _ & _ & _ & Hsetup & _).
  exists S0, I0, R0, D0. exact Hsetup.
Defined.

(** ** Reading the final state *)


Lemma setup_keeps_soln (population cases recovered deaths : Z) (self : SIRD.t) :
  SIRD.soln (snd (SIRD.setup population cases recovered deaths self)) = SIRD.soln self.
Proof.
  destruct (setup_cases population cases recovered deaths self)
    as [[_ H]|[_ (e & _ & H)]]; rewrite H; reflexivity.
Qed.







(** ** What [solve] does *)

Lemma time_grid_lookup (tf : Z) (t_eval : list Qc) (i : nat) :
  linspace (Qc_of_Z 0) (Qc_of_Z tf) (tf * 2) = Ok t_eval ->
  (Z.of_nat i < 2 * tf)%Z ->
  t_eval !! i = Some (Qc_of_Z (Z.of_nat i) * (Qc_of_Z tf / Qc_of_Z (2 * tf - 1))).
Proof.
  intros Hgrid Hi.
  destruct (linspace_samples (Qc_of_Z 0) (Qc_of_Z tf) (tf * 2) ltac:(lia))
    as (grid & Hgrid' & _ & Hlookup).
  rewrite Hgrid in Hgrid'. injection Hgrid' as <-.
  rewrite Hlookup by lia.
  destruct (Z.ltb_spec 1 (tf * 2)); [|lia].
  replace (tf * 2 - 1)%Z with (2 * tf - 1)%Z by lia.
  rewrite Z2Qc_inj_0. f_equal. unfold Qcminus.
  replace (- 0) with (Q2Qc 0) by ring.
  rewrite !Qcplus_0_r. reflexivity.
Qed.

Lemma time_grid_length (tf : Z) (t_eval : list Qc) :
  linspace (Qc_of_Z 0) (Qc_of_Z tf) (tf * 2) = Ok t_eval ->
  Z.of_nat (length t_eval) = (2 * tf)%Z.
Proof.
  intros Hgrid.
  destruct (Z.ltb_spec (tf * 2) 0) as [Hneg|Hnn].
  - rewrite linspace_negative in Hgrid by exact Hneg. discriminate Hgrid.
  - destruct (linspace_samples (Qc_of_Z 0) (Qc_of_Z tf) (tf * 2) Hnn)
      as (grid & Hgrid' & Hlen & _).
    rewrite Hgrid in Hgrid'. injection Hgrid' as <-. lia.
Qed.

Lemma time_grid_ends (tf : Z) (t_eval : list Qc) :
  linspace (Qc_of_Z 0) (Qc_of_Z tf) (tf * 2) = Ok t_eval ->
  (1 <= tf)%Z ->
  head t_eval = Some 0 /\ last t_eval = Some (Qc_of_Z tf).
Proof.
  intros Hgrid Htf.
  pose proof (time_grid_length tf t_eval Hgrid) as Hlen.
  split.
  - rewrite head_lookup, (time_grid_lookup tf t_eval 0 Hgrid) by lia.
    change (Z.of_nat 0) with 0%Z. rewrite Z2Qc_inj_0, Qcmult_0_l. reflexivity.
  - rewrite last_lookup, (time_grid_lookup tf t_eval _ Hgrid) by lia.
    replace (Z.of_nat (pred (length t_eval))) with (2 * tf - 1)%Z by lia.
    f_equal. field. rewrite Qc_of_Z_eq_0. lia.
Qed.

(** C8: a [solve] that succeeds has called [setup] on the four counts of
    the initial conditions, has integrated [eqns] over the span (0, tf) from
    the state [setup] stored, with the rates of the instance, on a grid of
    exactly 2*tf points i * tf/(2*tf - 1), which runs from 0 to tf, has
    stored the integrator's result, and has returned the instance itself;
    leaving [time_frame] out is the same as passing 300. *)
Theorem solve_setup_grid_self
    (solve_ivp : integrator) (ic : gmap string Z) (tf : Z) (self r self' : SIRD.t) :
  SIRD.solve solve_ivp ic (Some tf) self = (Ok r, self') ->
  (exists (population cases recovered deaths : Z) (self1 : SIRD.t)
          (y0 t_eval : list Qc) (s : OdeResult),
      ic !! "population"%string = Some population
      /\ ic !! "cases"%string = Some cases
      /\ ic !! "recovered"%string = Some recovered
      /\ ic !! "deaths"%string = Some deaths
      /\ SIRD.setup population cases recovered deaths self = (Ok tt, self1)
      /\ SIRD.y0 self1 = Some y0
      /\ linspace (Qc_of_Z 0) (Qc_of_Z tf) (tf * 2) = Ok t_eval
      /\ Z.of_nat (length t_eval) = (2 * tf)%Z
      /\ (forall i : nat,
            (Z.of_nat i < 2 * tf)%Z ->
            t_eval !! i
            = Some (Qc_of_Z (Z.of_nat i) * (Qc_of_Z tf / Qc_of_Z (2 * tf - 1))))
      /\ ((1 <= tf)%Z -> head t_eval = Some 0 /\ last t_eval = Some (Qc_of_Z tf))
      /\ solve_ivp SIRD.eqns (0%Z, tf) y0
           (SIRD.beta self, SIRD.gamma self, SIRD.delta self) t_eval = Ok s
      /\ self' = SIRD.with_soln s self1
      /\ r = self')
  /\ SIRD.time_frame_default = 300%Z
  /\ SIRD.solve solve_ivp ic None self = SIRD.solve solve_ivp ic (Some 300%Z) self.
Proof.
  intros Hsolve. split; [|split; reflexivity].
  destruct (solve_inv solve_ivp ic (Some tf) self self' r Hsolve)
    as (p & c & rc & d & t_eval & s & Hp & Hc & Hr & Hd & Hfit & Hgrid & Hs & Hself & Hret).
  change (default SIRD.time_frame_default (Some tf)) with tf in Hgrid, Hs.
  exists p, c, rc, d,
    (SIRD.with_y0 (initial_state p c rc d) (SIRD.with_population p self)),
    (initial_state p c rc d), t_eval, s.
  do 4 (split; [assumption|]).
  split; [apply setup_ok; exact Hfit|].
  split; [reflexivity|].
  split; [exact Hgrid|].
  split; [exact (time_grid_length tf t_eval Hgrid)|].
  split; [intros i Hi; exact (time_grid_lookup tf t_eval i Hgrid Hi)|].
  split; [exact (time_grid_ends tf t_eval Hgrid)|].
  split; [exact Hs|].
  split; assumption.
Qed.

(** The module's initial conditions over two days with the reference
    integrator: the grid is 0, 2/3, 4/3, 2. *)
Lemma solve_setup_grid_self_witness :
  exists (self' : SIRD.t) (t_eval : list Qc),
    SIRD.solve euler initial_conditions (Some 2%Z) scenario = (Ok self', self')
    /\ linspace (Qc_of_Z 0) (Qc_of_Z 2) (2 * 2) = Ok t_eval
    /\ length t_eval = 4%nat
    /\ SIRD.population self' = Some 60000000%Z.
Proof.
  pose (run := SIRD.solve euler initial_conditions (Some 2%Z) scenario).
  assert (Hrun : run = (Ok (snd run), snd run)) by (vm_compute; reflexivity).
  destruct (solve_setup_grid_self euler initial_conditions 2 scenario
              (snd run) (snd run) Hrun)
    as [(p & c & rc & d & self1 & y0 & t_eval & s & _ & _ & _ & _ & _ & _
         & Hgrid & Hlen & _) _].
  exists (snd run), t_eval.
  split; [exact Hrun|]. split; [exact Hgrid|]. split; [lia|].
  vm_compute. reflexivity.
Defined.

(** * Further properties *)

(** ** The right-hand side, continued *)

(** X1: [eqns] returns a list, of four derivatives, exactly when the state
    it is given has four items; on any other state the unpacking
    [S, I, R, D = y] raises [ValueError]. *)
Theorem eqns_state_arity (t : Qc) (y : list Qc) (beta gamma delta : Qc) :
  match SIRD.eqns t y beta gamma delta with
  | Ok dy => length y = 4%nat /\ length dy = 4%nat
  | Raise e => length y <> 4%nat /\ e = ValueError
  end.
Proof.
  destruct y as [|a [|b [|c [|d [|e y]]]]]; simpl; split;
    first [reflexivity | discriminate].
Qed.

(** ** The constructor, continued *)

(** X6: the constructor raises nothing but [ValueError] and
    [ZeroDivisionError], and it raises [ZeroDivisionError] exactly in two
    cases: R0, M, P are all given and P = 0, even if the three rates are
    given too and would do on their own; or one of R0, M, P is missing, the
    three rates are given and gamma + delta = 0. *)
Theorem init_zero_division_cases (R0 M P beta gamma delta : option Qc) :
  (SIRD.__init__ R0 M P beta gamma delta = Raise ZeroDivisionError
   <-> (exists r m, R0 = Some r /\ M = Some m /\ P = Some 0)
       \/ ((R0 = None \/ M = None \/ P = None)
           /\ exists b g d,
               beta = Some b /\ gamma = Some g /\ delta = Some d /\ g + d = 0))
  /\ (forall e,
        SIRD.__init__ R0 M P beta gamma delta = Raise e ->
        e = ValueError \/ e = ZeroDivisionError).
Proof.
  assert (Hrates : forall b g d : Qc,
             ((P0 <- truediv 1 (g + d) ;;
               M0 <- truediv d (g + d) ;;
               Ok (SIRD.mk (b * P0) M0 P0 b g d None None None))
              = Raise ZeroDivisionError <-> g + d = 0)
             /\ forall e,
                 (P0 <- truediv 1 (g + d) ;;
                  M0 <- truediv d (g + d) ;;
                  Ok (SIRD.mk (b * P0) M0 P0 b g d None None None)) = Raise e ->
                 e = ValueError \/ e = ZeroDivisionError).
  { intros b g d. unfold truediv.
    destruct (decide (g + d = 0)) as [E|E]; simpl.
    - split; [tauto|]. intros e [= <-]. right; reflexivity.
    - split; [split; [discriminate | contradiction]|]. discriminate. }
  destruct R0 as [r|], M as [m|], P as [p|];
    try (rewrite init_rates_branch by tauto;
         destruct beta as [b|], gamma as [g|], delta as [d|];
         try (split;
              [split;
               [discriminate
               |intros [(r' & m' & H1 & H2 & H3)|[_ (b' & g' & d' & H1 & H2 & H3 & _)]];
                discriminate]
              |intros e [= <-]; left; reflexivity]);
         destruct (Hrates b g d) as [Hiff Hexn]; split;
         [rewrite Hiff; split;
          [intros E; right; split; [tauto|]; exists b, g, d; tauto
          |intros [(r' & m' & H1 & H2 & H3)|[_ (b' & g' & d' & [= ->] & [= ->] & [= ->] & E)]];
           [discriminate | exact E]]
         |exact Hexn]).
  unfold SIRD.__init__, truediv.
  destruct (decide (p = 0)) as [->|E]; simpl.
  - split.
    + split; [intros _; left; exists r, m; tauto | reflexivity].
    + intros e [= <-]. right; reflexivity.
  - split; [|discriminate]. split; [discriminate|].
    intros [(r' & m' & _ & _ & [= Hp])|[[H|[H|H]] _]];
      [contradiction | discriminate H | discriminate H | discriminate H].
Qed.

(** ** Normalising the initial conditions, continued *)

Lemma count_fraction_range (n population : Z) :
  (0 < population)%Z -> (0 <= n <= population)%Z ->
  0 <= Qc_of_Z n / Qc_of_Z population <= 1.
Proof.
  intros Hpos [Hn0 Hnp].
  assert (Hinv : 0 < / Qc_of_Z population).
  { apply Qcinv_pos. rewrite <- Z2Qc_inj_0. apply (proj1 (Z2Qc_inj_lt _ _)). exact Hpos. }
  assert (Hne : Qc_of_Z population <> 0) by (rewrite Qc_of_Z_eq_0; lia).
  unfold Qcdiv. split.
  - apply Qcmult_nonneg_nonneg; [|apply Qclt_le_weak, Hinv].
    rewrite <- Z2Qc_inj_0. apply (proj1 (Z2Qc_inj_le _ _)). exact Hn0.
  - rewrite <- (Qcmult_inv_r (Qc_of_Z population) Hne).
    apply Qcmult_le_compat_r; [|apply Qclt_le_weak, Hinv].
    apply (proj1 (Z2Qc_inj_le _ _)). exact Hnp.
Qed.

(** X7: [setup] with population 0 raises [ZeroDivisionError], but only
    after it has stored the population: afterwards [population] is 0, while
    [y0], [soln] and the six parameters are as they were. *)
Theorem setup_population_zero (cases recovered deaths : Z) (self : SIRD.t) :
  exists self',
    SIRD.setup 0 cases recovered deaths self = (Raise ZeroDivisionError, self')
    /\ SIRD.population self' = Some 0%Z
    /\ SIRD.y0 self' = SIRD.y0 self
    /\ SIRD.soln self' = SIRD.soln self
    /\ (SIRD.R0 self', SIRD.M self', SIRD.P self')
       = (SIRD.R0 self, SIRD.M self, SIRD.P self)
    /\ (SIRD.beta self', SIRD.gamma self', SIRD.delta self')
       = (SIRD.beta self, SIRD.gamma self, SIRD.delta self).
Proof.
  eexists. split; [apply setup_zero|]. repeat split.
Qed.

Lemma int_truediv_scale (k a b : Z) :
  k <> 0%Z -> int_truediv (k * a) (k * b) = int_truediv a b.
Proof.
  intros Hk. unfold int_truediv.
  destruct (decide (b = 0%Z)) as [->|Hb].
  - rewrite Z.mul_0_r. reflexivity.
  - destruct (decide ((k * b)%Z = 0%Z)) as [E|_]; [lia|].
    rewrite !Z.abs_mul.
    assert (Hpos : (0 < Z.abs k)%Z) by lia.
    destruct (decide (float_overflow_bound * (Z.abs k * Z.abs b) <= Z.abs k * Z.abs a)%Z)
      as [H1|H1];
      destruct (decide (float_overflow_bound * Z.abs b <= Z.abs a)%Z) as [H2|H2];
      try reflexivity; try (exfalso; nia).
    f_equal. rewrite !Z2Qc_inj_mul. field.
    split; rewrite Qc_of_Z_eq_0; assumption.
Qed.

(** X8: for counts that fit the population (population > 0, counts >= 0,
    cases + recovered + deaths <= population), [setup] raises nothing and
    stores the population and four fractions that each lie in [0, 1]. *)
Theorem setup_valid_counts_fractions
    (population cases recovered deaths : Z) (self : SIRD.t) :
  (0 < population)%Z ->
  (0 <= cases)%Z -> (0 <= recovered)%Z -> (0 <= deaths)%Z ->
  (cases + recovered + deaths <= population)%Z ->
  exists (self' : SIRD.t) (S0 I0 R0 D0 : Qc),
    SIRD.setup population cases recovered deaths self = (Ok tt, self')
    /\ SIRD.population self' = Some population
    /\ SIRD.y0 self' = Some [S0; I0; R0; D0]
    /\ 0 <= S0 <= 1 /\ 0 <= I0 <= 1 /\ 0 <= R0 <= 1 /\ 0 <= D0 <= 1.
Proof.
  intros Hpos Hc Hr Hd Hsum.
  assert (Hbound : (1 < float_overflow_bound)%Z) by (vm_compute; reflexivity).
  assert (Hfit : counts_fit population cases recovered deaths).
  { unfold counts_fit, quotient_fits. repeat split; nia. }
  eexists _, _, _, _, _.
  split; [apply setup_ok; exact Hfit|].
  split; [reflexivity|]. split; [reflexivity|].
  repeat split; apply count_fraction_range; lia.
Qed.

(** At the initial conditions of the module. *)
Lemma setup_valid_counts_fractions_witness :
  exists (self' : SIRD.t) (S0 I0 R0 D0 : Qc),
    SIRD.setup 60000000 3000 20 80 scenario = (Ok tt, self')
    /\ SIRD.population self' = Some 60000000%Z
    /\ SIRD.y0 self' = Some [S0; I0; R0; D0]
    /\ 0 <= S0 <= 1 /\ 0 <= I0 <= 1 /\ 0 <= R0 <= 1 /\ 0 <= D0 <= 1.
Proof.
  apply (setup_valid_counts_fractions 60000000 3000 20 80 scenario); lia.
Defined.

(** X9: what [setup] returns or raises, and the state it stores, depend on
    the ratios of the counts only: multiplying the population and the three
    counts by the same non-zero integer gives the same outcome and the same
    stored state. *)
Theorem setup_scale_invariant
    (k population cases recovered deaths : Z) (self : SIRD.t) :
  k <> 0%Z ->
  fst (SIRD.setup (k * population) (k * cases) (k * recovered) (k * deaths) self)
  = fst (SIRD.setup population cases recovered deaths self)
  /\ SIRD.y0 (snd (SIRD.setup (k * population) (k * cases) (k * recovered)
                     (k * deaths) self))
     = SIRD.y0 (snd (SIRD.setup population cases recovered deaths self)).
Proof.
  intros Hk.
  unfold SIRD.setup, SIRD.bind, SIRD.lift, SIRD.set_population, SIRD.set_y0.
  replace (k * population - k * cases - k * recovered - k * deaths)%Z
    with (k * (population - cases - recovered - deaths))%Z by lia.
  rewrite !(int_truediv_scale k) by exact Hk.
  destruct (int_truediv (population - cases - recovered - deaths) population);
    [|split; reflexivity].
  destruct (int_truediv recovered population); [|split; reflexivity].
  destruct (int_truediv deaths population); [|split; reflexivity].
  destruct (int_truediv cases population); split; reflexivity.
Qed.

(** The module's counts against the same counts in thousands. *)
Lemma setup_scale_invariant_witness :
  SIRD.y0 (snd (SIRD.setup (1000 * 60000) (1000 * 3) (1000 * 2) (1000 * 8) scenario))
  = SIRD.y0 (snd (SIRD.setup 60000 3 2 8 scenario)).
Proof.
  apply (setup_scale_invariant 1000 60000 3 2 8 scenario). discriminate.
Defined.

(** X10: a [setup] that returns overwrites what an earlier [setup] stored:
    the instance it leaves is the same whether or not another [setup],
    successful or failed, came before. *)
Theorem setup_overwrites
    (population cases recovered deaths population' cases' recovered' deaths' : Z)
    (self : SIRD.t) :
  fst (SIRD.setup population cases recovered deaths self) = Ok tt ->
  SIRD.setup population cases recovered deaths
    (snd (SIRD.setup population' cases' recovered' deaths' self))
  = SIRD.setup population cases recovered deaths self.
Proof.
  intros Hok.
  destruct (setup_cases population cases recovered deaths self)
    as [[Hfit H]|[_ (e & _ & H)]];
    [|rewrite H in Hok; discriminate Hok].
  rewrite H, (setup_ok _ _ _ _ _ Hfit).
  destruct (setup_cases population' cases' recovered' deaths' self)
    as [[_ H']|[_ (e & _ & H')]]; rewrite H'; reflexivity.
Qed.

(** After a failed [setup] with population 0. *)
Lemma setup_overwrites_witness :
  SIRD.setup 60000000 3000 20 80 (snd (SIRD.setup 0 1 1 1 scenario))
  = SIRD.setup 60000000 3000 20 80 scenario.
Proof.
  apply (setup_overwrites 60000000 3000 20 80 0 1 1 1 scenario).
  rewrite setup_ok by fits. reflexivity.
Defined.

(** ** Solving, continued *)

(** Every way [solve] can end, with the instance it leaves behind. *)
Lemma solve_outcomes (solve_ivp : integrator) (ic : gmap string Z)
    (time_frame : option Z) (self : SIRD.t) :
  SIRD.solve solve_ivp ic time_frame self = (Raise KeyError, self)
  \/ (exists population cases recovered deaths,
        (exists e,
            SIRD.solve solve_ivp ic time_frame self
            = (Raise e, snd (SIRD.setup population cases recovered deaths self)))
        \/ (exists s,
              SIRD.solve solve_ivp ic time_frame self
              = (Ok (SIRD.with_soln s
                       (snd (SIRD.setup population cases recovered deaths self))),
                 SIRD.with_soln s
                   (snd (SIRD.setup population cases recovered deaths self))))).
Proof.
  destruct (ic !! "population"%string) as [p|] eqn:Hp;
    [|left; unfold SIRD.solve, SIRD.bind, SIRD.lift, getitem; rewrite Hp; reflexivity].
  destruct (ic !! "cases"%string) as [c|] eqn:Hc;
    [|left; unfold SIRD.solve, SIRD.bind, SIRD.lift, getitem; rewrite Hp, Hc;
      reflexivity].
  destruct (ic !! "recovered"%string) as [rc|] eqn:Hr;
    [|left; unfold SIRD.solve, SIRD.bind, SIRD.lift, getitem; rewrite Hp, Hc, Hr;
      reflexivity].
  destruct (ic !! "deaths"%string) as [d|] eqn:Hd;
    [|left; unfold SIRD.solve, SIRD.bind, SIRD.lift, getitem; rewrite Hp, Hc, Hr, Hd;
      reflexivity].
  right. exists p, c, rc, d.
  rewrite (solve_steps solve_ivp ic time_frame self _ _ _ _ Hp Hc Hr Hd).
  cbv zeta.
  destruct (setup_cases p c rc d self) as [[_ H]|[_ (e & _ & H)]]; rewrite H;
    [|left; exists e; reflexivity].
  cbn [SIRD.y0 SIRD.with_y0 snd].
  destruct (linspace _ _ _) as [t_eval|e]; [|left; exists e; reflexivity].
  destruct (solve_ivp _ _ _ _ _) as [s|e];
    [right; exists s; reflexivity | left; exists e; reflexivity].
Qed.

Lemma setup_keeps_parameters (population cases recovered deaths : Z) (self : SIRD.t) :
  let self' := snd (SIRD.setup population cases recovered deaths self) in
  SIRD.R0 self' = SIRD.R0 self /\ SIRD.M self' = SIRD.M self
  /\ SIRD.P self' = SIRD.P self /\ SIRD.beta self' = SIRD.beta self
  /\ SIRD.gamma self' = SIRD.gamma self /\ SIRD.delta self' = SIRD.delta self.
Proof.
  cbv zeta.
  destruct (setup_cases population cases recovered deaths self)
    as [[_ H]|[_ (e & _ & H)]]; rewrite H; repeat split.
Qed.

(** X11: if one of the keys population, cases, recovered, deaths is
    missing from the initial conditions, [solve] raises [KeyError] and
    leaves the instance untouched: nothing is stored and the integrator is
    not run. *)
Theorem solve_missing_key (solve_ivp : integrator) (ic : gmap string Z)
    (time_frame : option Z) (self : SIRD.t) :
  ic !! "population"%string = None \/ ic !! "cases"%string = None
  \/ ic !! "recovered"%string = None \/ ic !! "deaths"%string = None ->
  SIRD.solve solve_ivp ic time_frame self = (Raise KeyError, self).
Proof.
  intros H. unfold SIRD.solve, SIRD.bind, SIRD.lift, getitem.
  destruct (ic !! "population"%string) as [p|]; [|reflexivity].
  destruct (ic !! "cases"%string) as [c|]; [|reflexivity].
  destruct (ic !! "recovered"%string) as [rc|]; [|reflexivity].
  destruct (ic !! "deaths"%string) as [d|]; [|reflexivity].
  destruct H as [H|[H|[H|H]]]; discriminate H.
Qed.

(** The module's initial conditions without the key deaths. *)
Lemma solve_missing_key_witness :
  SIRD.solve euler (delete "deaths"%string initial_conditions) None scenario
  = (Raise KeyError, scenario).
Proof.
  apply (solve_missing_key euler (delete "deaths"%string initial_conditions)
           None scenario).
  right; right; right. vm_compute. reflexivity.
Defined.

(** X12: with a negative time frame, on initial conditions for which
    [setup] returns, [solve] raises [ValueError] (from the evaluation grid)
    without running the integrator, but [setup] has run: the population and
    the initial state are stored, the trajectory is as before. *)
Theorem solve_negative_time_frame (solve_ivp : integrator) (ic : gmap string Z)
    (tf : Z) (self self1 : SIRD.t) (population cases recovered deaths : Z) :
  ic !! "population"%string = Some population ->
  ic !! "cases"%string = Some cases ->
  ic !! "recovered"%string = Some recovered ->
  ic !! "deaths"%string = Some deaths ->
  SIRD.setup population cases recovered deaths self = (Ok tt, self1) ->
  (tf < 0)%Z ->
  SIRD.solve solve_ivp ic (Some tf) self = (Raise ValueError, self1)
  /\ SIRD.population self1 = Some population
  /\ SIRD.y0 self1 = Some (initial_state population cases recovered deaths)
  /\ SIRD.soln self1 = SIRD.soln self.
Proof.
  intros Hp Hc Hr Hd Hsetup Htf.
  rewrite (solve_steps solve_ivp ic (Some tf) self _ _ _ _ Hp Hc Hr Hd).
  cbv zeta. rewrite Hsetup.
  destruct (setup_cases population cases recovered deaths self)
    as [[_ H]|[_ (e & _ & H)]];
    rewrite H in Hsetup; [|discriminate Hsetup].
  injection Hsetup as <-. cbn [SIRD.y0 SIRD.with_y0].
  change (default SIRD.time_frame_default (Some tf)) with tf.
  rewrite linspace_negative by lia.
  split; [reflexivity|]. repeat split.
Qed.

(** The module's initial conditions with a time frame of -1. *)
Lemma solve_negative_time_frame_witness :
  exists self1,
    SIRD.setup 60000000 3000 20 80 scenario = (Ok tt, self1)
    /\ SIRD.solve euler initial_conditions (Some (-1)%Z) scenario
       = (Raise ValueError, self1)
    /\ SIRD.population self1 = Some 60000000%Z
    /\ SIRD.y0 self1 = Some (initial_state 60000000 3000 20 80)
    /\ SIRD.soln self1 = SIRD.soln scenario.
Proof.
  eexists. split; [apply setup_ok; fits|].
  apply (solve_negative_time_frame euler initial_conditions (-1) scenario _
           60000000 3000 20 80);
    first [apply setup_ok; fits | vm_compute; reflexivity | lia].
Defined.

(** X13: with population 0 in the initial conditions [solve] raises
    [ZeroDivisionError] whatever the integrator and the time frame are; the
    population 0 is stored, the initial state and the trajectory are as
    before. *)
Theorem solve_population_zero (solve_ivp : integrator) (ic : gmap string Z)
    (time_frame : option Z) (self : SIRD.t) (cases recovered deaths : Z) :
  ic !! "population"%string = Some 0%Z ->
  ic !! "cases"%string = Some cases ->
  ic !! "recovered"%string = Some recovered ->
  ic !! "deaths"%string = Some deaths ->
  exists self',
    SIRD.solve solve_ivp ic time_frame self = (Raise ZeroDivisionError, self')
    /\ SIRD.population self' = Some 0%Z
    /\ SIRD.y0 self' = SIRD.y0 self
    /\ SIRD.soln self' = SIRD.soln self.
Proof.
  intros Hp Hc Hr Hd.
  eexists. rewrite (solve_steps solve_ivp ic time_frame self _ _ _ _ Hp Hc Hr Hd).
  cbv zeta. rewrite setup_zero.
  split; [reflexivity|]. repeat split.
Qed.

(** The module's initial conditions with the population set to 0. *)
Lemma solve_population_zero_witness :
  exists self',
    SIRD.solve euler (<["population"%string := 0%Z]> initial_conditions) None scenario
    = (Raise ZeroDivisionError, self')
    /\ SIRD.population self' = Some 0%Z
    /\ SIRD.y0 self' = SIRD.y0 scenario
    /\ SIRD.soln self' = SIRD.soln scenario.
Proof.
  apply (solve_population_zero euler
           (<["population"%string := 0%Z]> initial_conditions) None scenario
           3000 20 80);
    vm_compute; reflexivity.
Defined.

(** X14: given the four keys, [solve] succeeds exactly when [setup]
    returns on the four counts, the time frame is not negative and the
    integrator returns a result on the grid; the counts are not compared
    with the population and the integrator's [success] flag is not looked
    at. *)
Theorem solve_succeeds_iff (solve_ivp : integrator) (ic : gmap string Z)
    (tf : Z) (self : SIRD.t) (population cases recovered deaths : Z) :
  ic !! "population"%string = Some population ->
  ic !! "cases"%string = Some cases ->
  ic !! "recovered"%string = Some recovered ->
  ic !! "deaths"%string = Some deaths ->
  (exists r self', SIRD.solve solve_ivp ic (Some tf) self = (Ok r, self'))
  <-> fst (SIRD.setup population cases recovered deaths self) = Ok tt
      /\ (0 <= tf)%Z
      /\ exists t_eval s,
          linspace (Qc_of_Z 0) (Qc_of_Z tf) (tf * 2) = Ok t_eval
          /\ solve_ivp SIRD.eqns (0%Z, tf)
               (initial_state population cases recovered deaths)
               (SIRD.beta self, SIRD.gamma self, SIRD.delta self) t_eval = Ok s.
Proof.
  intros Hp Hc Hr Hd. split.
  - intros (r & self' & Hsolve).
    destruct (solve_inv solve_ivp ic (Some tf) self self' r Hsolve)
      as (p & c & rc & d & t_eval & s & Hp' & Hc' & Hr' & Hd' & Hfit & Hgrid & Hs & _).
    change (default SIRD.time_frame_default (Some tf)) with tf in Hgrid, Hs.
    rewrite Hp in Hp'. rewrite Hc in Hc'. rewrite Hr in Hr'. rewrite Hd in Hd'.
    injection Hp' as <-. injection Hc' as <-. injection Hr' as <-. injection Hd' as <-.
    split; [rewrite setup_ok by exact Hfit; reflexivity|]. split.
    + destruct (Z.ltb_spec (tf * 2) 0) as [Hneg|Hnn]; [|lia].
      rewrite linspace_negative in Hgrid by exact Hneg. discriminate Hgrid.
    + exists t_eval, s. split; assumption.
  - intros (Hok & Htf & t_eval & s & Hgrid & Hs).
    assert (Hfit : counts_fit population cases recovered deaths).
    { destruct (setup_cases population cases recovered deaths self)
        as [[Hfit _]|[_ (e & _ & H)]]; [exact Hfit|].
      rewrite H in Hok. discriminate Hok. }
    destruct (solve_run solve_ivp ic (Some tf) self _ _ _ _ Hp Hc Hr Hd Hfit Htf)
      as (t_eval' & Hgrid' & Hsolve).
    change (default SIRD.time_frame_default (Some tf)) with tf in Hgrid', Hsolve.
    rewrite Hgrid in Hgrid'. injection Hgrid' as <-.
    cbv zeta in Hsolve. rewrite Hs in Hsolve.
    eexists _, _. exact Hsolve.
Qed.

(** The module's initial conditions over two days with the reference
    integrator. *)
Lemma solve_succeeds_iff_witness :
  exists r self', SIRD.solve euler initial_conditions (Some 2%Z) scenario = (Ok r, self').
Proof.
  apply (solve_succeeds_iff euler initial_conditions 2 scenario 60000000 3000 20 80);
    try (vm_compute; reflexivity).
  split; [rewrite setup_ok by fits; reflexivity|]. split; [lia|].
  destruct (linspace (Qc_of_Z 0) (Qc_of_Z 2) (2 * 2)) as [t_eval|e] eqn:Hgrid;
    [|vm_compute in Hgrid; discriminate Hgrid].
  exists t_eval.
  destruct (euler SIRD.eqns (0%Z, 2%Z) (initial_state 60000000 3000 20 80)
              (SIRD.beta scenario, SIRD.gamma scenario, SIRD.delta scenario) t_eval)
    as [s|e] eqn:Hs.
  - exists s. split; reflexivity.
  - exfalso. vm_compute in Hgrid. injection Hgrid as <-.
    vm_compute in Hs. discriminate Hs.
Defined.

(** ** Reading the final state, continued *)

Lemma get_params_reads_soln (a b : SIRD.t) :
  SIRD.soln a = SIRD.soln b ->
  fst (SIRD.get_params a) = fst (SIRD.get_params b).
Proof.
  intros H. unfold SIRD.get_params, SIRD.bind, SIRD.getattr, SIRD.lift, SIRD.ret.
  rewrite H. destruct (SIRD.soln b) as [s|]; [|reflexivity].
  destruct (last_column (sol_y s)) as [params|e]; [|reflexivity].
  destruct (index params 0) as [x0|e]; [|reflexivity].
  destruct (index params 1) as [x1|e]; [|reflexivity].
  destruct (index params 2) as [x2|e]; [|reflexivity].
  destruct (index params 3) as [x3|e]; reflexivity.
Qed.



(** X15: [get_params] never changes the instance, and what it returns or
    raises depends on the stored trajectory alone. *)
Theorem get_params_read_only :
  (forall self, snd (SIRD.get_params self) = self)
  /\ (forall a b,
        SIRD.soln a = SIRD.soln b ->
        fst (SIRD.get_params a) = fst (SIRD.get_params b)).
Proof.
  split; [|exact get_params_reads_soln].
  intros self. unfold SIRD.get_params, SIRD.bind, SIRD.getattr, SIRD.lift, SIRD.ret.
  destruct (SIRD.soln self) as [s|]; [|reflexivity].
  destruct (last_column (sol_y s)) as [params|e]; [|reflexivity].
  destruct (index params 0) as [x0|e]; [|reflexivity].
  destruct (index params 1) as [x1|e]; [|reflexivity].
  destruct (index params 2) as [x2|e]; [|reflexivity].
  destruct (index params 3) as [x3|e]; reflexivity.
Qed.



(** ** Calls in sequence *)

(** X17: a [solve] that raises, for whatever reason, leaves the stored
    trajectory as it was; [get_params] afterwards returns, or raises, what it
    did before the failed call. *)
Theorem solve_failure_keeps_trajectory (solve_ivp : integrator)
    (ic : gmap string Z) (time_frame : option Z) (self self' : SIRD.t) (e : exn) :
  SIRD.solve solve_ivp ic time_frame self = (Raise e, self') ->
  SIRD.soln self' = SIRD.soln self
  /\ fst (SIRD.get_params self') = fst (SIRD.get_params self).
Proof.
  intros Hsolve.
  assert (Hsoln : SIRD.soln self' = SIRD.soln self).
  { destruct (solve_outcomes solve_ivp ic time_frame self)
      as [H|(p & c & rc & d & [(e' & H)|(s & H)])];
      rewrite H in Hsolve; try discriminate Hsolve;
      injection Hsolve as _ <-; first [reflexivity | apply setup_keeps_soln]. }
  split; [exact Hsoln | apply get_params_reads_soln; exact Hsoln].
Qed.

(** A solve over two days, then a second one with a time frame of -1: the
    second fails and the first trajectory is still the one that is read. *)
Lemma solve_failure_keeps_trajectory_witness :
  exists solved failed : SIRD.t,
    SIRD.solve euler initial_conditions (Some 2%Z) scenario = (Ok solved, solved)
    /\ SIRD.solve euler initial_conditions (Some (-1)%Z) solved
       = (Raise ValueError, failed)
    /\ SIRD.soln failed = SIRD.soln solved
    /\ fst (SIRD.get_params failed) = fst (SIRD.get_params solved).
Proof.
  pose (run := SIRD.solve euler initial_conditions (Some 2%Z) scenario).
  assert (Hrun : run = (Ok (snd run), snd run)) by (vm_compute; reflexivity).
  pose (run2 := SIRD.solve euler initial_conditions (Some (-1)%Z) (snd run)).
  assert (Hrun2 : run2 = (Raise ValueError, snd run2)) by (vm_compute; reflexivity).
  exists (snd run), (snd run2).
  split; [exact Hrun|]. split; [exact Hrun2|].
  exact (solve_failure_keeps_trajectory euler initial_conditions (Some (-1)%Z)
           (snd run) (snd run2) ValueError Hrun2).
Defined.

(** X18: neither [setup] nor [solve], whether they return or raise, ever
    changes R0, M, P, beta, gamma or delta of the instance. *)
Theorem setup_solve_keep_parameters (solve_ivp : integrator) (ic : gmap string Z)
    (time_frame : option Z) (population cases recovered deaths : Z) (self : SIRD.t) :
  (SIRD.R0 (snd (SIRD.setup population cases recovered deaths self)) = SIRD.R0 self
   /\ SIRD.M (snd (SIRD.setup population cases recovered deaths self)) = SIRD.M self
   /\ SIRD.P (snd (SIRD.setup population cases recovered deaths self)) = SIRD.P self
   /\ SIRD.beta (snd (SIRD.setup population cases recovered deaths self))
      = SIRD.beta self
   /\ SIRD.gamma (snd (SIRD.setup population cases recovered deaths self))
      = SIRD.gamma self
   /\ SIRD.delta (snd (SIRD.setup population cases recovered deaths self))
      = SIRD.delta self)
  /\ (SIRD.R0 (snd (SIRD.solve solve_ivp ic time_frame self)) = SIRD.R0 self
      /\ SIRD.M (snd (SIRD.solve solve_ivp ic time_frame self)) = SIRD.M self
      /\ SIRD.P (snd (SIRD.solve solve_ivp ic time_frame self)) = SIRD.P self
      /\ SIRD.beta (snd (SIRD.solve solve_ivp ic time_frame self)) = SIRD.beta self
      /\ SIRD.gamma (snd (SIRD.solve solve_ivp ic time_frame self)) = SIRD.gamma self
      /\ SIRD.delta (snd (SIRD.solve solve_ivp ic time_frame self)) = SIRD.delta self).
Proof.
  split; [exact (setup_keeps_parameters population cases recovered deaths self)|].
  destruct (solve_outcomes solve_ivp ic time_frame self)
    as [H|(p & c & rc & d & [(e' & H)|(s & H)])];
    rewrite H; cbn [snd].
  - repeat split.
  - exact (setup_keeps_parameters p c rc d self).
  - exact (setup_keeps_parameters p c rc d self).
Qed.

(** X19: a successful [solve] keeps no history: on two instances with the
    same six parameters it returns the same instance, whatever population,
    initial state or trajectory either of them held before. *)
Theorem solve_keeps_no_history (solve_ivp : integrator) (ic : gmap string Z)
    (time_frame : option Z) (a b r a' : SIRD.t) :
  SIRD.R0 a = SIRD.R0 b -> SIRD.M a = SIRD.M b -> SIRD.P a = SIRD.P b ->
  SIRD.beta a = SIRD.beta b -> SIRD.gamma a = SIRD.gamma b ->
  SIRD.delta a = SIRD.delta b ->
  SIRD.solve solve_ivp ic time_frame a = (Ok r, a') ->
  SIRD.solve solve_ivp ic time_frame b = (Ok r, a').
Proof.
  intros HR0 HM HP Hbeta Hgamma Hdelta Hsolve.
  destruct (solve_inv solve_ivp ic time_frame a a' r Hsolve)
    as (p & c & rc & d & t_eval & s & Hp & Hc & Hr & Hd & Hfit & Hgrid & Hs & -> & ->).
  rewrite (solve_steps solve_ivp ic time_frame b _ _ _ _ Hp Hc Hr Hd). cbv zeta.
  rewrite setup_ok by exact Hfit. cbn [SIRD.y0 SIRD.with_y0].
  rewrite Hgrid.
  cbn [SIRD.beta SIRD.gamma SIRD.delta SIRD.with_population SIRD.with_y0].
  rewrite <- Hbeta, <- Hgamma, <- Hdelta, Hs.
  destruct a, b; cbn in HR0, HM, HP, Hbeta, Hgamma, Hdelta; subst. reflexivity.
Qed.

(** Solving the module's initial conditions over two days, on the fresh
    instance and on the instance a one-day solve has left. *)
Lemma solve_keeps_no_history_witness :
  exists solved : SIRD.t,
    SIRD.solve euler initial_conditions (Some 2%Z) scenario = (Ok solved, solved)
    /\ SIRD.solve euler initial_conditions (Some 2%Z)
         (snd (SIRD.solve euler initial_conditions (Some 1%Z) scenario))
       = (Ok solved, solved).
Proof.
  pose (run := SIRD.solve euler initial_conditions (Some 2%Z) scenario).
  assert (Hrun : run = (Ok (snd run), snd run)) by (vm_compute; reflexivity).
  exists (snd run). split; [exact Hrun|].
  apply (solve_keeps_no_history euler initial_conditions (Some 2%Z) scenario
           (snd (SIRD.solve euler initial_conditions (Some 1%Z) scenario))
           (snd run) (snd run));
    first [exact Hrun | vm_compute; reflexivity].
Defined.
